(** * HomeScreen: the asset-load-and-inspect flow of app/index.tsx

    The screen holds four React state slots and offers two handlers,
    [loadFileFromAsset] and [openFileWithIntent].  Both are embedded as
    programs of a small monad that threads the state slots, records every
    observable action in a trace, and carries JavaScript completions
    (normal, [return], [throw]) so that [try]/[catch]/[finally] and the
    early [return]s read as they do in the source. *)

From Stdlib Require Import String Ascii List NArith ZArith Bool Lia DecimalString.
Import ListNotations.
Open Scope string_scope.

(** ** JavaScript values the handlers touch *)

(** The line feed of a template literal's [\n]. *)
Definition nl : string := String (ascii_of_nat 10) EmptyString.

(** The double quote of a JSON dump. *)
Definition dq : string := String (ascii_of_nat 34) EmptyString.

(** [`${n}`] for a number that is a safe integer (at most 2^53 - 1), as
    the byte count read off a handle is; JavaScript prints larger numbers
    rounded or in exponent form, which this does not follow. *)
Definition string_of_N (n : N) : string := NilEmpty.string_of_uint (N.to_uint n).

(** Truthiness of a [string | null | undefined] value: absent and the empty
    string are falsy. *)
Definition truthy (v : option string) : bool :=
  match v with
  | Some s => negb (s =? "")
  | None => false
  end.

(** The largest safe integer, [Number.MAX_SAFE_INTEGER]. *)
Definition MAX_SAFE_INTEGER : N := 9007199254740991.

(** A thrown value that the [catch] clauses can format: what
    [`${error.message}`] prints for it ([undefined] when the property is
    missing) and what [`${JSON.stringify(error, null, 2)}`] prints. *)
Record JsError : Type := mkJsError {
  message : string;
  json : string
}.

(** Any thrown value ([catch (error: any)]).  [Unformattable raised] is a
    value on which reading [error.message] or calling
    [JSON.stringify(error, null, 2)] itself throws [raised]: [undefined] and
    [null], a circular object, an object holding a BigInt. *)
Inductive JsThrown : Type :=
| ErrorLike (e : JsError)
| Unformattable (raised : JsThrown).

Coercion ErrorLike : JsError >-> JsThrown.

(** [new Error(msg)]: [message] is not enumerable, so the dump is [{}]. *)
Definition new_Error (msg : string) : JsError :=
  {| message := msg; json := "{}" |}.

(** The object expo-asset hands back ([asset.uri], [asset.localUri], ...). *)
Module Asset.
Record t : Type := mk {
  uri : string;
  localUri : option string;
  name : string;
  type : string;
  hash : option string
}.
End Asset.

(** The handle expo-file-system constructs ([file.exists], [file.contentUri],
    ...).  [contentUri] is read through [as any]: absent or a string. *)
Module File.
Record t : Type := mk {
  uri : string;
  name : string;
  size : N;
  type : string;
  exists_ : bool;
  contentUri : option string
}.

Inductive prop : Type := p_name | p_size | p_type | p_exists | p_contentUri.
End File.

(** The second argument of [IntentLauncher.startActivityAsync]. *)
Module IntentLauncher.
Record params : Type := mk {
  data : option string;
  flags : Z;
  type : string
}.
End IntentLauncher.

(** ** React state of the screen (the four [useState] slots) *)

Record State : Type := mkState {
  fileObject : option File.t;
  fileInfo : string;
  errorText : string;
  isLoading : bool
}.

(** ** Observable actions *)

(** The extra arguments of a [console.log] / [console.error] call. *)
Inductive LogArg : Type :=
| LogNothing
| LogAsset (a : Asset.t)
| LogFile (f : File.t)
| LogValue (v : option string)
| LogText (s : string)
| LogError (e : JsThrown).

Inductive Event : Type :=
| SetFileObject (v : option File.t)
| SetFileInfo (s : string)
| SetErrorText (s : string)
| SetIsLoading (b : bool)
| ConsoleLog (label : string) (arg : LogArg)
| ConsoleError (label : string) (arg : LogArg)
| AlertAlert (title msg : string)
| AssetFromModule
| DownloadAsync (a : Asset.t)
| NewFile (fileUri : string)
| FileGet (p : File.prop)
| PlatformGetOS
| StartActivityAsync (action : string) (p : IntentLauncher.params)
| Await.

(** What one action does to the state slots: only the setters write. *)
Definition apply_event (st : State) (ev : Event) : State :=
  match ev with
  | SetFileObject v =>
      {| fileObject := v; fileInfo := fileInfo st;
         errorText := errorText st; isLoading := isLoading st |}
  | SetFileInfo s =>
      {| fileObject := fileObject st; fileInfo := s;
         errorText := errorText st; isLoading := isLoading st |}
  | SetErrorText s =>
      {| fileObject := fileObject st; fileInfo := fileInfo st;
         errorText := s; isLoading := isLoading st |}
  | SetIsLoading b =>
      {| fileObject := fileObject st; fileInfo := fileInfo st;
         errorText := errorText st; isLoading := b |}
  | _ => st
  end.

(** The state reached from [st] after the actions of [tr], in order. *)
Definition replay (st : State) (tr : list Event) : State :=
  fold_left apply_event tr st.

(** ** The collaborators outside the repository *)

(** An [Env] fixes what the collaborators answer during one run of a
    handler, which calls each of them at most once; two runs may meet
    different answers, and so take an [Env] each. *)

Record Env : Type := mkEnv {
  (** [Platform.OS] *)
  Platform_OS : string;
  (** [Asset.fromModule(require('../assets/pdf/sample.pdf'))] *)
  Asset_fromModule : JsThrown + Asset.t;
  (** [asset.downloadAsync()]: the asset as it is once the promise settles. *)
  Asset_downloadAsync : Asset.t -> JsThrown + Asset.t;
  (** [new FileSystem.File(fileUri)] *)
  FileSystem_File : string -> JsThrown + File.t;
  (** [IntentLauncher.startActivityAsync(action, params)]: [None] when the
      promise resolves, [Some e] when it rejects with [e]. *)
  IntentLauncher_startActivityAsync :
    string -> IntentLauncher.params -> option JsThrown
}.

(** ** Completions and the handler monad *)

Inductive Completion (A : Type) : Type :=
| Normal (a : A)
| Returned
| Thrown (e : JsThrown).
Arguments Normal {A} a.
Arguments Returned {A}.
Arguments Thrown {A} e.

Record Outcome (A : Type) : Type := mkOutcome {
  completion : Completion A;
  final : State;
  trace : list Event
}.
Arguments mkOutcome {A}.
Arguments completion {A}.
Arguments final {A}.
Arguments trace {A}.

Definition M (A : Type) : Type := State -> Outcome A.

Definition ret {A} (a : A) : M A :=
  fun st => mkOutcome (Normal a) st [].

Definition bind {A B} (m : M A) (k : A -> M B) : M B :=
  fun st =>
    match m st with
    | mkOutcome (Normal a) st1 t1 =>
        match k a st1 with
        | mkOutcome c st2 t2 => mkOutcome c st2 (t1 ++ t2)
        end
    | mkOutcome Returned st1 t1 => mkOutcome Returned st1 t1
    | mkOutcome (Thrown e) st1 t1 => mkOutcome (Thrown e) st1 t1
    end.

Declare Scope js_scope.
Delimit Scope js_scope with js.
Notation "x <- m ;; k" := (bind m (fun x => k))
  (at level 61, m at next level, right associativity) : js_scope.
Notation "m ;; k" := (bind m (fun _ => k))
  (at level 61, right associativity) : js_scope.
Open Scope js_scope.

(** One action: recorded in the trace and applied to the state. *)
Definition emit (ev : Event) : M unit :=
  fun st => mkOutcome (Normal tt) (apply_event st ev) [ev].

(** [throw e] and [return]. *)
Definition throw {A} (e : JsThrown) : M A :=
  fun st => mkOutcome (Thrown e) st [].
Definition return_ {A} : M A :=
  fun st => mkOutcome Returned st [].

(** [if (c) { ... }] with no [else]. *)
Definition when_ (c : bool) (m : M unit) : M unit :=
  if c then m else ret tt.

(** [try { body } catch (error) { handler }] *)
Definition try_catch {A} (body : M A) (handler : JsThrown -> M A) : M A :=
  fun st =>
    match body st with
    | mkOutcome (Thrown e) st1 t1 =>
        match handler e st1 with
        | mkOutcome c st2 t2 => mkOutcome c st2 (t1 ++ t2)
        end
    | r => r
    end.

(** [try { body } catch (error) { handler } finally { finalizer }]: the
    finalizer always runs; its own completion wins unless it is normal. *)
Definition try_catch_finally {A}
    (body : M A) (handler : JsThrown -> M A) (finalizer : M unit) : M A :=
  fun st =>
    match try_catch body handler st with
    | mkOutcome c st1 t1 =>
        match finalizer st1 with
        | mkOutcome (Normal _) st2 t2 => mkOutcome c st2 (t1 ++ t2)
        | mkOutcome Returned st2 t2 => mkOutcome Returned st2 (t1 ++ t2)
        | mkOutcome (Thrown e) st2 t2 => mkOutcome (Thrown e) st2 (t1 ++ t2)
        end
    end.

(** The boundary of an [async] arrow function returning nothing: [return]
    ends it normally; a throw that gets here rejects the promise the
    handler returned, which nobody observes. *)
Definition async (body : M unit) : M unit :=
  fun st =>
    match body st with
    | mkOutcome Returned st1 t1 => mkOutcome (Normal tt) st1 t1
    | r => r
    end.

(** [await p]: the call that made [p] has been recorded; the handler
    suspends, and resumes with [p]'s value or its rejection. *)
Definition await {A} (p : M A) : M A :=
  fun st =>
    match p st with
    | mkOutcome c st1 t1 => mkOutcome c st1 (t1 ++ [Await])
    end.

(** Evaluating [error.message] and [JSON.stringify(error, null, 2)] in a
    template literal: the texts, or the throw of a value that has none. *)
Definition formatted (error : JsThrown) : M JsError :=
  match error with
  | ErrorLike e => ret e
  | Unformattable raised => throw raised
  end.

(** The result of a collaborator, as a completion. *)
Definition settle {A} (r : JsThrown + A) : M A :=
  match r with
  | inl e => throw e
  | inr a => ret a
  end.

(** ** The screen *)

Section HomeScreen.

Variable env : Env.

(** The state setters, the console, the alert dialog. *)
Definition setFileObject (v : option File.t) : M unit := emit (SetFileObject v).
Definition setFileInfo (s : string) : M unit := emit (SetFileInfo s).
Definition setErrorText (s : string) : M unit := emit (SetErrorText s).
Definition setIsLoading (b : bool) : M unit := emit (SetIsLoading b).
Definition console_log (label : string) (arg : LogArg) : M unit :=
  emit (ConsoleLog label arg).
Definition console_error (label : string) (arg : LogArg) : M unit :=
  emit (ConsoleError label arg).
Definition Alert_alert (title msg : string) : M unit :=
  emit (AlertAlert title msg).

(** Calls into the collaborators: the call is recorded, then it settles. *)
Definition fromModule : M Asset.t :=
  emit AssetFromModule;; settle (Asset_fromModule env).
Definition downloadAsync (asset : Asset.t) : M Asset.t :=
  emit (DownloadAsync asset);; settle (Asset_downloadAsync env asset).
Definition new_File (fileUri : string) : M File.t :=
  emit (NewFile fileUri);; settle (FileSystem_File env fileUri).
Definition startActivityAsync (action : string) (p : IntentLauncher.params)
  : M unit :=
  emit (StartActivityAsync action p);;
  match IntentLauncher_startActivityAsync env action p with
  | None => ret tt
  | Some e => throw e
  end.

(** [Platform.OS] *)
Definition Platform_OS_get : M string :=
  emit PlatformGetOS;; ret (Platform_OS env).

(** A property read off the file handle. *)
Definition get {A} (p : File.prop) (v : A) : M A :=
  emit (FileGet p);; ret v.

(** [asset.localUri || asset.uri] *)
Definition localUri_or_uri (asset : Asset.t) : string :=
  match Asset.localUri asset with
  | Some s => if s =? "" then Asset.uri asset else s
  | None => Asset.uri asset
  end.

(** The [try] block of [loadFileFromAsset]. *)
Definition loadFileFromAsset_try : M unit :=
  setIsLoading true;;
  console_log "📂 Loading PDF from assets..." LogNothing;;
  asset <- fromModule;;
  (* downloadAsync fills in localUri on the same object *)
  asset <- await (downloadAsync asset);;
  console_log "✅ Asset downloaded:" (LogAsset asset);;
  let fileUri := localUri_or_uri asset in
  when_ (fileUri =? "") (throw (new_Error "No valid URI from asset"));;
  file <- new_File fileUri;;
  console_log "📄 File info:" (LogFile file);;
  file_exists <- get File.p_exists (File.exists_ file);;
  when_ (negb file_exists) (throw (new_Error "File does not exist"));;
  file_contentUri <- get File.p_contentUri (File.contentUri file);;
  console_log "🔍 Checking for contentUri..." (LogValue file_contentUri);;
  setFileObject (Some file);;
  file_name <- get File.p_name (File.name file);;
  file_size <- get File.p_size (File.size file);;
  file_type <- get File.p_type (File.type file);;
  Alert_alert "File Loaded"
    ("File object created from asset" ++ nl ++ "Name: " ++ file_name ++ nl
     ++ "Size: " ++ string_of_N file_size ++ " bytes" ++ nl
     ++ "Type: " ++ file_type).

(** Its [catch] clause. *)
Definition loadFileFromAsset_catch (error : JsThrown) : M unit :=
  console_error "❌ Error loading file:" (LogError error);;
  error_texts <- formatted error;;
  setErrorText
    ("Error: " ++ message error_texts ++ nl ++ nl ++ json error_texts);;
  Alert_alert "Error" ("Failed to load file: " ++ message error_texts).

(** Its [finally] clause. *)
Definition loadFileFromAsset_finally : M unit :=
  setIsLoading false.

Definition loadFileFromAsset : M unit :=
  async (
    setErrorText "";;
    setFileInfo "";;
    setFileObject None;;
    try_catch_finally
      loadFileFromAsset_try loadFileFromAsset_catch loadFileFromAsset_finally).

Definition contentUri_missing : string :=
  "contentUri is missing from the File object. This is the bug we are testing!".

(** The [try] block of [openFileWithIntent], for the handle it captured. *)
Definition openFileWithIntent_try (fileObject : File.t) : M unit :=
  setErrorText "";;
  console_log "🚀 Attempting to open file with IntentLauncher..." LogNothing;;
  let fileWithUri := fileObject in
  contentUri <- get File.p_contentUri (File.contentUri fileWithUri);;
  when_ (negb (truthy contentUri))
    (let error := contentUri_missing in
     setErrorText error;;
     Alert_alert "ContentURI Missing" error;;
     console_error "❌" (LogText error);;
     return_);;
  contentUri <- get File.p_contentUri (File.contentUri fileWithUri);;
  console_log "📄 Using contentUri:" (LogValue contentUri);;
  contentUri <- get File.p_contentUri (File.contentUri fileWithUri);;
  await (startActivityAsync "android.intent.action.VIEW"
           {| IntentLauncher.data := contentUri;
              IntentLauncher.flags := 1;
              IntentLauncher.type := "application/pdf" |});;
  console_log "✅ File opened successfully with IntentLauncher" LogNothing;;
  Alert_alert "Success" "PDF opened with IntentLauncher".

(** Its [catch] clause. *)
Definition openFileWithIntent_catch (error : JsThrown) : M unit :=
  error_texts <- formatted error;;
  let errorMsg :=
    "Error opening file: " ++ message error_texts ++ nl ++ nl
    ++ json error_texts in
  console_error "❌ Error opening file:" (LogError error);;
  setErrorText errorMsg;;
  Alert_alert "Error" ("Failed to open PDF: " ++ message error_texts).

(** [openFileWithIntent] works on the [fileObject] of the render that
    created it: the slot is read once, when the handler starts. *)
Definition openFileWithIntent : M unit :=
  fun st =>
    async (
      match fileObject st with
      | None =>
          Alert_alert "No File" "Please load the file first";;
          return_
      | Some fileObject =>
          os <- Platform_OS_get;;
          when_ (negb (os =? "android"))
            (setErrorText "IntentLauncher is only available on Android";;
             Alert_alert "Android Only"
               "IntentLauncher is only available on Android";;
             return_);;
          try_catch (openFileWithIntent_try fileObject) openFileWithIntent_catch
      end) st.

End HomeScreen.

(** ** Reading a trace *)

(** The calls made to [IntentLauncher.startActivityAsync], in order. *)
Fixpoint intent_calls (tr : list Event) : list (string * IntentLauncher.params) :=
  match tr with
  | [] => []
  | StartActivityAsync action p :: tr' => (action, p) :: intent_calls tr'
  | _ :: tr' => intent_calls tr'
  end.

(** The URIs [new FileSystem.File] was called with, in order. *)
Fixpoint constructed (tr : list Event) : list string :=
  match tr with
  | [] => []
  | NewFile fileUri :: tr' => fileUri :: constructed tr'
  | _ :: tr' => constructed tr'
  end.

(** The values [setFileObject] was called with, in order. *)
Fixpoint handle_writes (tr : list Event) : list (option File.t) :=
  match tr with
  | [] => []
  | SetFileObject v :: tr' => v :: handle_writes tr'
  | _ :: tr' => handle_writes tr'
  end.

(** The handles among them. *)
Fixpoint handles (vs : list (option File.t)) : list File.t :=
  match vs with
  | [] => []
  | Some f :: vs' => f :: handles vs'
  | None :: vs' => handles vs'
  end.

(** How often [contentUri] was read off a handle. *)
Fixpoint contentUri_reads (tr : list Event) : nat :=
  match tr with
  | [] => 0
  | FileGet File.p_contentUri :: tr' => S (contentUri_reads tr')
  | _ :: tr' => contentUri_reads tr'
  end.

(** How often the handler suspended. *)
Fixpoint awaits (tr : list Event) : nat :=
  match tr with
  | [] => 0
  | Await :: tr' => S (awaits tr')
  | _ :: tr' => awaits tr'
  end.

(** The actions before the first suspension, when there is one. *)
Fixpoint before_await (tr : list Event) : option (list Event) :=
  match tr with
  | [] => None
  | Await :: _ => Some []
  | ev :: tr' => option_map (cons ev) (before_await tr')
  end.

(** ** The dependency's constructor, for bundled assets *)

(** Modelled from the spec: [new FileSystem.File(fileUri)] is code of the
    expo-file-system dependency, which the repository only calls.  The
    spec's data model gives a handle its canonical URI, display name, byte
    size, MIME type and existence flag, and says that for a handle made
    from a bundled asset the alternate-access URI is absent.  [describe]
    stands for whatever else the dependency finds at the URI. *)
Definition File_of_bundled_asset
    (describe : string -> JsThrown + File.t) (fileUri : string)
  : JsThrown + File.t :=
  match describe fileUri with
  | inl e => inl e
  | inr f =>
      inr {| File.uri := File.uri f; File.name := File.name f;
             File.size := File.size f; File.type := File.type f;
             File.exists_ := File.exists_ f; File.contentUri := None |}
  end.

(** The collaborators of [env], with that constructor. *)
Definition with_bundled_File (env : Env) : Env :=
  {| Platform_OS := Platform_OS env;
     Asset_fromModule := Asset_fromModule env;
     Asset_downloadAsync := Asset_downloadAsync env;
     FileSystem_File := File_of_bundled_asset (FileSystem_File env);
     IntentLauncher_startActivityAsync := IntentLauncher_startActivityAsync env |}.

(** ** What a load amounts to *)

(** The checks of the [try] block of [loadFileFromAsset], without the
    actions: the handle it ends with, or the error it throws. *)
Definition load_result (env : Env) : JsThrown + File.t :=
  match Asset_fromModule env with
  | inl e => inl e
  | inr asset0 =>
      match Asset_downloadAsync env asset0 with
      | inl e => inl e
      | inr asset =>
          if localUri_or_uri asset =? "" then
            inl (ErrorLike (new_Error "No valid URI from asset"))
          else
            match FileSystem_File env (localUri_or_uri asset) with
            | inl e => inl e
            | inr file =>
                if File.exists_ file then inr file
                else inl (ErrorLike (new_Error "File does not exist"))
            end
      end
  end.

(** How [loadFileFromAsset_catch] shows [e]. *)
Definition load_error_text (e : JsError) : string :=
  "Error: " ++ message e ++ nl ++ nl ++ json e.

(** How [openFileWithIntent_catch] shows [e]. *)
Definition open_error_text (e : JsError) : string :=
  "Error opening file: " ++ message e ++ nl ++ nl ++ json e.

(** ** What the user sees, and what the trace accounts for *)

(** A failed load as the user sees it: the handler ended normally, the error
    panel holds the message and the JSON dump of [e], an alert names the
    message, and no handle is held. *)
Definition load_shows_error (r : Outcome unit) (e : JsError) : Prop :=
  completion r = Normal tt
  /\ errorText (final r) = "Error: " ++ message e ++ nl ++ nl ++ json e
  /\ In (AlertAlert "Error" ("Failed to load file: " ++ message e)) (trace r)
  /\ fileObject (final r) = None
  /\ isLoading (final r) = false.

(** A failed open as the user sees it. *)
Definition open_shows_error (r : Outcome unit) (e : JsError) : Prop :=
  completion r = Normal tt
  /\ errorText (final r)
     = "Error opening file: " ++ message e ++ nl ++ nl ++ json e
  /\ In (AlertAlert "Error" ("Failed to open PDF: " ++ message e)) (trace r).

(** The state in which the [try] block of [loadFileFromAsset] starts. *)
Definition cleared (st : State) : State :=
  replay st [SetErrorText ""; SetFileInfo ""; SetFileObject None].

(** A program is [Traced] when the state it ends in is the one its trace
    replays from the state it started in. *)
Definition Traced {A} (m : M A) : Prop :=
  forall st, final (m st) = replay st (trace (m st)).

(** ** Sample collaborators *)

Module Sample.

Definition asset0 : Asset.t :=
  Asset.mk "http://10.0.2.2:8081/assets/pdf/sample.pdf" None "sample" "pdf"
    (Some "9a0364b9e99bb480dd25e1f0284c8555").

Definition asset : Asset.t :=
  Asset.mk "http://10.0.2.2:8081/assets/pdf/sample.pdf"
    (Some "file:///data/user/0/host/cache/ExponentAsset-9a03.pdf")
    "sample" "pdf" (Some "9a0364b9e99bb480dd25e1f0284c8555").

Definition asset_no_uri : Asset.t :=
  Asset.mk "" (Some "") "sample" "pdf" None.

Definition file : File.t :=
  File.mk "file:///data/user/0/host/cache/ExponentAsset-9a03.pdf"
    "ExponentAsset-9a03.pdf" 13264 "application/pdf" true None.

Definition file_with_contentUri : File.t :=
  File.mk "file:///data/user/0/host/cache/ExponentAsset-9a03.pdf"
    "ExponentAsset-9a03.pdf" 13264 "application/pdf" true
    (Some "content://provider/files/sample.pdf").

Definition file_missing : File.t :=
  File.mk "file:///data/user/0/host/cache/ExponentAsset-9a03.pdf"
    "ExponentAsset-9a03.pdf" 0 "" false None.

Definition no_handler : JsError :=
  mkJsError "No Activity found to handle Intent"
    ("{" ++ nl ++ "  " ++ dq ++ "code" ++ dq ++ ": " ++ dq ++ "ERR_INTENT" ++ dq
     ++ nl ++ "}").

Definition android : Env :=
  mkEnv "android" (inr asset0) (fun _ => inr asset) (fun _ => inr file)
    (fun _ _ => None).

Definition android_populated : Env :=
  mkEnv "android" (inr asset0) (fun _ => inr asset)
    (fun _ => inr file_with_contentUri) (fun _ _ => None).

Definition android_rejecting : Env :=
  mkEnv "android" (inr asset0) (fun _ => inr asset)
    (fun _ => inr file_with_contentUri) (fun _ _ => Some (ErrorLike no_handler)).

Definition android_remote_only : Env :=
  mkEnv "android" (inr asset0) (fun a => inr a) (fun _ => inr file)
    (fun _ _ => None).

Definition android_no_uri : Env :=
  mkEnv "android" (inr asset0) (fun _ => inr asset_no_uri) (fun _ => inr file)
    (fun _ _ => None).

Definition android_missing : Env :=
  mkEnv "android" (inr asset0) (fun _ => inr asset) (fun _ => inr file_missing)
    (fun _ _ => None).

Definition ios : Env :=
  mkEnv "ios" (inr asset0) (fun _ => inr asset) (fun _ => inr file)
    (fun _ _ => None).

Definition initial : State := mkState None "" "" false.

Definition loaded (f : File.t) : State := mkState (Some f) "" "" false.

End Sample.

(** ** What the screen renders *)

(** The parts of the JSX tree of [HomeScreen] that depend on the state or
    on the platform; titles, the description and the note are fixed text.
    A style is the list of [styles] keys in the [style] array, the falsy
    entries left out.  [selectedBox] is the handle whose JSON dump the
    [File Object] box shows, [errorBox] the text of the error panel; each
    is absent when its [&&] guard is falsy. *)
Module Screen.
Record t : Type := mk {
  load_style : list string;
  load_disabled : bool;
  load_text : string;
  open_style : list string;
  open_disabled : bool;
  selectedBox : option File.t;
  errorBox : option string;
  platform_note : string
}.
End Screen.

Definition render (env : Env) (st : State) : Screen.t :=
  {| Screen.load_style :=
       "button" :: (if isLoading st then ["buttonDisabled"] else []);
     Screen.load_disabled := isLoading st;
     Screen.load_text :=
       if isLoading st then "⏳ Loading..." else "📂 Load PDF from Assets";
     Screen.open_style :=
       "button" :: "buttonTertiary"
       :: (match fileObject st with
           | None => ["buttonDisabled"]
           | Some _ => []
           end);
     Screen.open_disabled :=
       match fileObject st with
       | None => true
       | Some _ => false
       end;
     Screen.selectedBox := fileObject st;
     Screen.errorBox :=
       if errorText st =? "" then None else Some (errorText st);
     Screen.platform_note := "Platform: " ++ Platform_OS env |}.

(** ** More ways to read a trace *)

(** The alerts shown, in order. *)
Fixpoint alerts (tr : list Event) : list (string * string) :=
  match tr with
  | [] => []
  | AlertAlert title msg :: tr' => (title, msg) :: alerts tr'
  | _ :: tr' => alerts tr'
  end.

(** How often [console.error] was called. *)
Fixpoint console_errors (tr : list Event) : nat :=
  match tr with
  | [] => 0
  | ConsoleError _ _ :: tr' => S (console_errors tr')
  | _ :: tr' => console_errors tr'
  end.

(** The values [setIsLoading] and [setFileInfo] were called with. *)
Fixpoint isLoading_writes (tr : list Event) : list bool :=
  match tr with
  | [] => []
  | SetIsLoading b :: tr' => b :: isLoading_writes tr'
  | _ :: tr' => isLoading_writes tr'
  end.

Fixpoint fileInfo_writes (tr : list Event) : list string :=
  match tr with
  | [] => []
  | SetFileInfo s :: tr' => s :: fileInfo_writes tr'
  | _ :: tr' => fileInfo_writes tr'
  end.

(** Whether an action is a call into expo-asset or expo-file-system. *)
Definition is_asset_or_file_call (ev : Event) : bool :=
  match ev with
  | AssetFromModule | DownloadAsync _ | NewFile _ => true
  | _ => false
  end.

(** The [DownloadAsync] calls of a trace. *)
Fixpoint downloads (tr : list Event) : list Asset.t :=
  match tr with
  | [] => []
  | DownloadAsync a :: tr' => a :: downloads tr'
  | _ :: tr' => downloads tr'
  end.

(** How often a property was read off a handle. *)
Fixpoint file_reads (tr : list Event) : nat :=
  match tr with
  | [] => 0
  | FileGet _ :: tr' => S (file_reads tr')
  | _ :: tr' => file_reads tr'
  end.

(** The collaborators of [env] on another platform. *)
Definition with_Platform_OS (env : Env) (os : string) : Env :=
  {| Platform_OS := os;
     Asset_fromModule := Asset_fromModule env;
     Asset_downloadAsync := Asset_downloadAsync env;
     FileSystem_File := FileSystem_File env;
     IntentLauncher_startActivityAsync := IntentLauncher_startActivityAsync env |}.

(** The text of the [File Loaded] alert for a handle. *)
Definition file_loaded_text (file : File.t) : string :=
  "File object created from asset" ++ nl ++ "Name: " ++ File.name file ++ nl
  ++ "Size: " ++ string_of_N (File.size file) ++ " bytes" ++ nl
  ++ "Type: " ++ File.type file.

(** What a run of [loadFileFromAsset] makes of a value thrown in its [try]
    block: shown as an error when the [catch] clause can format it; when it
    cannot, the clause throws what the formatting raised, and no error
    text or alert is shown. *)
Definition load_reports (r : Outcome unit) (v : JsThrown) : Prop :=
  match v with
  | ErrorLike e => load_shows_error r e
  | Unformattable raised =>
      completion r = Thrown raised
      /\ errorText (final r) = ""
      /\ alerts (trace r) = []
      /\ fileObject (final r) = None
      /\ isLoading (final r) = false
  end.

(** More sample collaborators. *)
Module Sample2.

Definition not_in_registry : JsError :=
  mkJsError "Module is missing from the asset registry" "{}".

Definition offline : JsError :=
  mkJsError "Unable to download asset" "{}".

Definition bad_uri : JsError :=
  mkJsError "Invalid URI" "{}".

Definition unregistered : Env :=
  mkEnv "android" (inl (ErrorLike not_in_registry)) (fun _ => inr Sample.asset)
    (fun _ => inr Sample.file) (fun _ _ => None).

Definition no_network : Env :=
  mkEnv "android" (inr Sample.asset0) (fun _ => inl (ErrorLike offline))
    (fun _ => inr Sample.file) (fun _ _ => None).

Definition throwing_File : Env :=
  mkEnv "android" (inr Sample.asset0) (fun _ => inr Sample.asset)
    (fun _ => inl (ErrorLike bad_uri)) (fun _ _ => None).

Definition failed : State :=
  mkState None "" ("Error: File does not exist" ++ nl ++ nl ++ "{}") false.

End Sample2.

(** Collaborators that reject with values the [catch] clauses cannot
    format. *)
Module Sample3.

(** The TypeError of reading [message] off [undefined]. *)
Definition cannot_read_message : JsError :=
  new_Error "Cannot read property 'message' of undefined".

(** The TypeError of [JSON.stringify] on a circular object. *)
Definition circular_structure : JsError :=
  new_Error "Converting circular structure to JSON".

Definition download_rejects_undefined : Env :=
  mkEnv "android" (inr Sample.asset0)
    (fun _ => inl (Unformattable (ErrorLike cannot_read_message)))
    (fun _ => inr Sample.file) (fun _ _ => None).

Definition viewer_rejects_circular : Env :=
  mkEnv "android" (inr Sample.asset0) (fun _ => inr Sample.asset)
    (fun _ => inr Sample.file_with_contentUri)
    (fun _ _ => Some (Unformattable (ErrorLike circular_structure))).

Definition viewer_rejects_second_time : Env :=
  mkEnv "android" (inr Sample.asset0) (fun _ => inr Sample.asset)
    (fun _ => inr Sample.file_with_contentUri)
    (fun _ _ => Some (ErrorLike Sample.no_handler)).

End Sample3.

(** ** Every state change is in the trace *)

Lemma replay_app st t1 t2 : replay st (t1 ++ t2) = replay (replay st t1) t2.
Proof. unfold replay. apply fold_left_app. Qed.

Section TracedRules.

Context {A B : Type}.

Lemma Traced_ret (a : A) : Traced (ret a).
Proof. intro st. reflexivity. Qed.

Lemma Traced_emit ev : Traced (emit ev).
Proof. intro st. reflexivity. Qed.

Lemma Traced_throw e : Traced (@throw A e).
Proof. intro st. reflexivity. Qed.

Lemma Traced_return_ : Traced (@return_ A).
Proof. intro st. reflexivity. Qed.

Lemma Traced_bind (m : M A) (k : A -> M B) :
  Traced m -> (forall a, Traced (k a)) -> Traced (bind m k).
Proof.
  intros Hm Hk st. unfold bind.
  specialize (Hm st). destruct (m st) as [[a| |e] st1 t1]; cbn [final trace] in *; auto.
  specialize (Hk a st1). destruct (k a st1) as [c st2 t2]; cbn [final trace] in *.
  rewrite replay_app. congruence.
Qed.

Lemma Traced_settle (r : JsThrown + A) : Traced (settle r).
Proof. destruct r; intro st; reflexivity. Qed.

Lemma Traced_await (p : M A) : Traced p -> Traced (await p).
Proof.
  intros Hp st. unfold await.
  specialize (Hp st). destruct (p st) as [c st1 t1]; cbn [final trace] in *.
  rewrite replay_app, <- Hp. reflexivity.
Qed.

Lemma Traced_try_catch (body : M A) handler :
  Traced body -> (forall e, Traced (handler e)) -> Traced (try_catch body handler).
Proof.
  intros Hb Hh st. unfold try_catch.
  specialize (Hb st). destruct (body st) as [[a| |e] st1 t1]; cbn [final trace] in *; auto.
  specialize (Hh e st1). destruct (handler e st1) as [c st2 t2]; cbn [final trace] in *.
  rewrite replay_app. congruence.
Qed.

Lemma Traced_try_catch_finally (body : M A) handler finalizer :
  Traced body -> (forall e, Traced (handler e)) -> Traced finalizer ->
  Traced (try_catch_finally body handler finalizer).
Proof.
  intros Hb Hh Hf st. unfold try_catch_finally.
  pose proof (Traced_try_catch body handler Hb Hh st) as Ht.
  destruct (try_catch body handler st) as [c st1 t1]; cbn [final trace] in *.
  specialize (Hf st1).
  destruct (finalizer st1) as [[a| |e] st2 t2]; cbn [final trace] in *;
    rewrite replay_app; congruence.
Qed.

End TracedRules.

Lemma Traced_when_ c m : Traced m -> Traced (when_ c m).
Proof. destruct c; cbn; [auto | apply Traced_ret]. Qed.

Lemma Traced_async body : Traced body -> Traced (async body).
Proof.
  intros Hb st. unfold async.
  specialize (Hb st). destruct (body st) as [[a| |e] st1 t1]; cbn [final trace] in *; auto.
Qed.

Ltac head_of m :=
  lazymatch m with
  | ?f _ => head_of f
  | _ => m
  end.

Ltac traced :=
  repeat first
    [ apply Traced_ret | apply Traced_emit | apply Traced_throw
    | apply Traced_return_ | apply Traced_settle
    | apply Traced_bind; [ | intro ]
    | apply Traced_await | apply Traced_when_ | apply Traced_async
    | apply Traced_try_catch; [ | intro ]
    | apply Traced_try_catch_finally; [ | intro | ]
    | match goal with
      | |- Traced (let _ := _ in _) => cbv zeta
      | |- Traced (match ?x with _ => _ end) => destruct x
      | |- Traced ?m => let h := head_of m in unfold h
      end ].

Lemma Traced_loadFileFromAsset env : Traced (loadFileFromAsset env).
Proof. traced. Qed.

Lemma Traced_openFileWithIntent env : Traced (openFileWithIntent env).
Proof.
  intro st. unfold openFileWithIntent.
  apply (@Traced_async _). traced.
Qed.

(** ** Running [loadFileFromAsset] *)

Ltac unfold_handlers :=
  unfold loadFileFromAsset, loadFileFromAsset_try, loadFileFromAsset_catch,
    loadFileFromAsset_finally, openFileWithIntent, openFileWithIntent_try,
    openFileWithIntent_catch, fromModule, downloadAsync, new_File,
    startActivityAsync, Platform_OS_get, get, setFileObject, setFileInfo,
    setErrorText, setIsLoading, console_log, console_error, Alert_alert in *.

Ltac case_split :=
  match goal with
  | |- context [match ?x with _ => _ end] =>
      lazymatch x with
      | context [match _ with _ => _ end] => fail
      | _ => destruct x eqn:?
      end
  end.

Ltac unfold_monad :=
  unfold async, try_catch_finally, try_catch, await, when_, settle,
    formatted in *.

Ltac run := unfold_handlers; unfold_monad; cbn; repeat (case_split; cbn in *).

Section Load.

Variables (env : Env) (st : State).

Lemma load_try_completion :
  completion (loadFileFromAsset_try env st)
  = match load_result env with
    | inl e => Thrown e
    | inr _ => Normal tt
    end.
Proof. unfold load_result. run; congruence. Qed.

Lemma load_completion :
  completion (loadFileFromAsset env st)
  = match load_result env with
    | inl (Unformattable raised) => Thrown raised
    | _ => Normal tt
    end.
Proof. unfold load_result. run; congruence. Qed.

Lemma load_final :
  final (loadFileFromAsset env st)
  = match load_result env with
    | inl (ErrorLike e) => mkState None "" (load_error_text e) false
    | inl (Unformattable _) => mkState None "" "" false
    | inr file => mkState (Some file) "" "" false
    end.
Proof. unfold load_result, load_error_text. run; congruence. Qed.

Lemma load_handle_writes :
  handle_writes (trace (loadFileFromAsset env st))
  = None :: match load_result env with
            | inl _ => []
            | inr file => [Some file]
            end.
Proof. unfold load_result. run; congruence. Qed.

End Load.

Section LoadTrace.

Variables (env : Env) (st : State).

Lemma load_constructed :
  constructed (trace (loadFileFromAsset env st))
  = match Asset_fromModule env with
    | inl _ => []
    | inr asset0 =>
        match Asset_downloadAsync env asset0 with
        | inl _ => []
        | inr asset =>
            if localUri_or_uri asset =? "" then [] else [localUri_or_uri asset]
        end
    end.
Proof. run; congruence. Qed.

Lemma load_before_await :
  before_await (trace (loadFileFromAsset env st))
  = match Asset_fromModule env with
    | inl _ => None
    | inr asset0 =>
        Some [SetErrorText ""; SetFileInfo ""; SetFileObject None;
              SetIsLoading true;
              ConsoleLog "📂 Loading PDF from assets..." LogNothing;
              AssetFromModule; DownloadAsync asset0]
    end.
Proof. run; congruence. Qed.

Lemma load_awaits : awaits (trace (loadFileFromAsset env st)) <= 1.
Proof. run; lia. Qed.

Lemma load_trace_starts :
  firstn 3 (trace (loadFileFromAsset env st))
  = [SetErrorText ""; SetFileInfo ""; SetFileObject None].
Proof. run; congruence. Qed.

Lemma load_alert_error (e : JsError) :
  load_result env = inl (ErrorLike e) ->
  In (AlertAlert "Error" ("Failed to load file: " ++ message e))
     (trace (loadFileFromAsset env st)).
Proof.
  unfold load_result. run; intros [= <-]; cbn; intuition congruence.
Qed.

End LoadTrace.

(** ** Operation 2: [openFileWithIntent] *)

Lemma eqb_android_false os : os <> "android" -> (os =? "android") = false.
Proof. apply String.eqb_neq. Qed.

(** C4: with no file handle in the slot, [openFileWithIntent] shows the
    notice [Please load the file first] and returns: that alert is its only
    action, so it neither reads [Platform.OS], nor reads [contentUri], nor
    calls [IntentLauncher.startActivityAsync], and the state is untouched. *)
Theorem openFileWithIntent_without_handle (env : Env) (st : State) :
  fileObject st = None ->
  completion (openFileWithIntent env st) = Normal tt
  /\ trace (openFileWithIntent env st)
     = [AlertAlert "No File" "Please load the file first"]
  /\ final (openFileWithIntent env st) = st
  /\ ~ In PlatformGetOS (trace (openFileWithIntent env st))
  /\ contentUri_reads (trace (openFileWithIntent env st)) = 0
  /\ intent_calls (trace (openFileWithIntent env st)) = [].
Proof.
  intros Hnull. unfold openFileWithIntent. rewrite Hnull.
  run. repeat split; intuition discriminate.
Qed.

Lemma openFileWithIntent_without_handle_witness :
  trace (openFileWithIntent Sample.android Sample.initial)
  = [AlertAlert "No File" "Please load the file first"].
Proof.
  apply (openFileWithIntent_without_handle Sample.android Sample.initial).
  reflexivity.
Defined.

(** C5: with a handle in the slot on a platform other than Android,
    [openFileWithIntent] shows the notice [IntentLauncher is only available
    on Android] (as error text and as an alert) and returns, without reading
    [contentUri] and without calling [IntentLauncher.startActivityAsync]. *)
Theorem openFileWithIntent_not_android (env : Env) (st : State) (f : File.t) :
  fileObject st = Some f ->
  Platform_OS env <> "android" ->
  completion (openFileWithIntent env st) = Normal tt
  /\ trace (openFileWithIntent env st)
     = [PlatformGetOS;
        SetErrorText "IntentLauncher is only available on Android";
        AlertAlert "Android Only" "IntentLauncher is only available on Android"]
  /\ errorText (final (openFileWithIntent env st))
     = "IntentLauncher is only available on Android"
  /\ contentUri_reads (trace (openFileWithIntent env st)) = 0
  /\ intent_calls (trace (openFileWithIntent env st)) = [].
Proof.
  intros Hsome Hos. apply eqb_android_false in Hos.
  unfold openFileWithIntent. rewrite Hsome.
  unfold_handlers; unfold_monad; cbn. rewrite Hos. cbn. repeat split.
Qed.

Lemma openFileWithIntent_not_android_witness :
  errorText (final (openFileWithIntent Sample.ios (Sample.loaded Sample.file)))
  = "IntentLauncher is only available on Android"
  /\ intent_calls (trace (openFileWithIntent Sample.ios (Sample.loaded Sample.file)))
     = [].
Proof.
  pose proof (openFileWithIntent_not_android Sample.ios
                (Sample.loaded Sample.file) Sample.file) as H.
  split; apply H; try reflexivity; discriminate.
Defined.

(** C2: on Android, with a handle whose [contentUri] is absent or empty,
    [openFileWithIntent] ends by showing the [contentUri is missing] error
    (as error text and as an alert) and never calls
    [IntentLauncher.startActivityAsync].  The [try] block completes by
    [return], not by a throw, and nothing of the [catch] clause runs. *)
Theorem openFileWithIntent_contentUri_missing
    (env : Env) (st : State) (f : File.t) :
  fileObject st = Some f ->
  Platform_OS env = "android" ->
  truthy (File.contentUri f) = false ->
  completion (openFileWithIntent env st) = Normal tt
  /\ errorText (final (openFileWithIntent env st)) = contentUri_missing
  /\ trace (openFileWithIntent env st)
     = [PlatformGetOS;
        SetErrorText "";
        ConsoleLog "🚀 Attempting to open file with IntentLauncher..." LogNothing;
        FileGet File.p_contentUri;
        SetErrorText contentUri_missing;
        AlertAlert "ContentURI Missing" contentUri_missing;
        ConsoleError "❌" (LogText contentUri_missing)]
  /\ intent_calls (trace (openFileWithIntent env st)) = []
  /\ completion (openFileWithIntent_try env f st) = Returned.
Proof.
  intros Hsome Hos Hfalsy.
  unfold openFileWithIntent. rewrite Hsome.
  unfold_handlers; unfold_monad; cbn. rewrite Hos, Hfalsy. cbn. repeat split.
Qed.

Lemma openFileWithIntent_contentUri_missing_witness :
  errorText (final (openFileWithIntent Sample.android (Sample.loaded Sample.file)))
  = contentUri_missing
  /\ intent_calls
       (trace (openFileWithIntent Sample.android (Sample.loaded Sample.file)))
     = [].
Proof.
  pose proof (openFileWithIntent_contentUri_missing Sample.android
                (Sample.loaded Sample.file) Sample.file) as H.
  split; apply H; reflexivity.
Defined.

(** C3: on Android, with a handle whose [contentUri] is a non-empty string,
    [openFileWithIntent] calls [IntentLauncher.startActivityAsync] exactly
    once, with the action [android.intent.action.VIEW], that [contentUri] as
    [data], [flags] 1 and [type] [application/pdf].  It reports success
    exactly when that call resolves; when the call rejects with a value the
    [catch] clause can format, it reports the rejection instead and ends
    normally; when it rejects with one the clause cannot format, the clause
    itself throws and nothing is reported. *)
Theorem openFileWithIntent_contentUri_present
    (env : Env) (st : State) (f : File.t) (c : string) :
  fileObject st = Some f ->
  Platform_OS env = "android" ->
  File.contentUri f = Some c ->
  c <> "" ->
  ((forall raised,
       IntentLauncher_startActivityAsync env "android.intent.action.VIEW"
         {| IntentLauncher.data := Some c;
            IntentLauncher.flags := 1;
            IntentLauncher.type := "application/pdf" |}
       <> Some (Unformattable raised)) ->
   completion (openFileWithIntent env st) = Normal tt)
  /\ intent_calls (trace (openFileWithIntent env st))
     = [("android.intent.action.VIEW",
         {| IntentLauncher.data := Some c;
            IntentLauncher.flags := 1;
            IntentLauncher.type := "application/pdf" |})]
  /\ (IntentLauncher_startActivityAsync env "android.intent.action.VIEW"
        {| IntentLauncher.data := Some c;
           IntentLauncher.flags := 1;
           IntentLauncher.type := "application/pdf" |} = None
      <-> In (AlertAlert "Success" "PDF opened with IntentLauncher")
             (trace (openFileWithIntent env st)))
  /\ (IntentLauncher_startActivityAsync env "android.intent.action.VIEW"
        {| IntentLauncher.data := Some c;
           IntentLauncher.flags := 1;
           IntentLauncher.type := "application/pdf" |} = None ->
      errorText (final (openFileWithIntent env st)) = "")
  /\ (forall e : JsError,
      IntentLauncher_startActivityAsync env "android.intent.action.VIEW"
        {| IntentLauncher.data := Some c;
           IntentLauncher.flags := 1;
           IntentLauncher.type := "application/pdf" |} = Some (ErrorLike e) ->
      errorText (final (openFileWithIntent env st)) = open_error_text e
      /\ In (AlertAlert "Error" ("Failed to open PDF: " ++ message e))
            (trace (openFileWithIntent env st)))
  /\ (forall raised,
      IntentLauncher_startActivityAsync env "android.intent.action.VIEW"
        {| IntentLauncher.data := Some c;
           IntentLauncher.flags := 1;
           IntentLauncher.type := "application/pdf" |}
      = Some (Unformattable raised) ->
      completion (openFileWithIntent env st) = Thrown raised
      /\ errorText (final (openFileWithIntent env st)) = ""
      /\ alerts (trace (openFileWithIntent env st)) = []).
Proof.
  intros Hsome Hos Hc Hne.
  apply String.eqb_neq in Hne.
  unfold openFileWithIntent. rewrite Hsome.
  unfold_handlers; unfold_monad; cbn. rewrite Hos, Hc. cbn. rewrite Hne. cbn.
  destruct (IntentLauncher_startActivityAsync env _ _) as [[e|raised]|]; cbn.
  - split; [reflexivity|]. split; [reflexivity|].
    split; [|split; [|split]].
    + split; [discriminate|].
      intros H. repeat (destruct H as [H|H]; try discriminate). destruct H.
    + discriminate.
    + intros e' [= <-]. split; [reflexivity|]. cbn. intuition.
    + discriminate.
  - split; [intros H; now destruct (H raised)|]. split; [reflexivity|].
    split; [|split; [|split]].
    + split; [discriminate|].
      intros H. repeat (destruct H as [H|H]; try discriminate). destruct H.
    + discriminate.
    + discriminate.
    + intros r' [= <-]. repeat split.
  - split; [reflexivity|]. split; [reflexivity|].
    split; [|split; [|split]].
    + split; [|reflexivity]. intros _. cbn. intuition.
    + reflexivity.
    + discriminate.
    + discriminate.
Qed.

Lemma openFileWithIntent_contentUri_present_witness :
  intent_calls
    (trace (openFileWithIntent Sample.android_populated
              (Sample.loaded Sample.file_with_contentUri)))
  = [("android.intent.action.VIEW",
      {| IntentLauncher.data := Some "content://provider/files/sample.pdf";
         IntentLauncher.flags := 1;
         IntentLauncher.type := "application/pdf" |})]
  /\ errorText
       (final (openFileWithIntent Sample.android_rejecting
                 (Sample.loaded Sample.file_with_contentUri)))
     = open_error_text Sample.no_handler.
Proof.
  split.
  - apply (openFileWithIntent_contentUri_present Sample.android_populated
             (Sample.loaded Sample.file_with_contentUri)
             Sample.file_with_contentUri
             "content://provider/files/sample.pdf");
      try reflexivity; discriminate.
  - apply (openFileWithIntent_contentUri_present Sample.android_rejecting
             (Sample.loaded Sample.file_with_contentUri)
             Sample.file_with_contentUri
             "content://provider/files/sample.pdf");
      try reflexivity; discriminate.
Defined.

(** ** Operation 1: [loadFileFromAsset] *)

Lemma load_result_shows_error env st (e : JsError) :
  load_result env = inl (ErrorLike e) ->
  load_shows_error (loadFileFromAsset env st) e.
Proof.
  intros H. unfold load_shows_error.
  rewrite load_completion, load_final, H. cbn.
  repeat split. apply load_alert_error, H.
Qed.

Lemma load_result_inr env file :
  load_result env = inr file ->
  exists asset0 asset,
    Asset_fromModule env = inr asset0
    /\ Asset_downloadAsync env asset0 = inr asset
    /\ localUri_or_uri asset <> ""
    /\ FileSystem_File env (localUri_or_uri asset) = inr file
    /\ File.exists_ file = true.
Proof.
  unfold load_result.
  destruct (Asset_fromModule env) as [e|asset0] eqn:Hfrom; [discriminate|].
  destruct (Asset_downloadAsync env asset0) as [e|asset] eqn:Hdown;
    [discriminate|].
  destruct (localUri_or_uri asset =? "") eqn:Huri; [discriminate|].
  destruct (FileSystem_File env (localUri_or_uri asset)) as [e|f] eqn:Hf;
    [discriminate|].
  destruct (File.exists_ f) eqn:Hex; [|discriminate].
  intros [= <-]. exists asset0, asset.
  repeat split; auto. now apply String.eqb_neq.
Qed.

Lemma In_handle_writes tr v :
  In (SetFileObject v) tr -> In v (handle_writes tr).
Proof.
  induction tr as [|ev tr IH]; cbn; [tauto|].
  intros [->|H]; [now left|].
  destruct ev; cbn; auto.
Qed.

Lemma localUri_or_uri_local asset l :
  Asset.localUri asset = Some l -> l <> "" -> localUri_or_uri asset = l.
Proof.
  intros Hl Hne. unfold localUri_or_uri. rewrite Hl.
  apply String.eqb_neq in Hne. now rewrite Hne.
Qed.

Lemma localUri_or_uri_remote asset :
  truthy (Asset.localUri asset) = false ->
  localUri_or_uri asset = Asset.uri asset.
Proof.
  unfold localUri_or_uri, truthy.
  destruct (Asset.localUri asset) as [l|]; [|reflexivity].
  destruct (l =? ""); [reflexivity|discriminate].
Qed.

(** C1: on Android, when [new FileSystem.File] behaves as the spec describes
    it for bundled assets, the handle a successful [loadFileFromAsset]
    leaves in the slot has no [contentUri]: the handler stores the
    constructed handle as it is. *)
Theorem loadFileFromAsset_bundled_contentUri_absent
    (env : Env) (st : State) (f : File.t) :
  Platform_OS env = "android" ->
  fileObject (final (loadFileFromAsset (with_bundled_File env) st)) = Some f ->
  File.contentUri f = None /\ truthy (File.contentUri f) = false.
Proof.
  intros _. rewrite load_final.
  destruct (load_result (with_bundled_File env)) as [[e|raised]|file] eqn:Hres;
    cbn; [discriminate|discriminate|].
  intros [= <-].
  apply load_result_inr in Hres.
  destruct Hres as (asset0 & asset & _ & _ & _ & Hfile & _).
  cbn in Hfile. unfold File_of_bundled_asset in Hfile.
  destruct (FileSystem_File env (localUri_or_uri asset)) as [e|f0];
    [discriminate|].
  injection Hfile as <-. split; reflexivity.
Qed.

Lemma loadFileFromAsset_bundled_contentUri_absent_witness :
  fileObject
    (final (loadFileFromAsset (with_bundled_File Sample.android_populated)
              Sample.initial))
  = Some Sample.file
  /\ File.contentUri Sample.file = None.
Proof.
  split; [reflexivity|].
  apply (loadFileFromAsset_bundled_contentUri_absent Sample.android_populated
           Sample.initial Sample.file); reflexivity.
Defined.

(** C6: once the asset is resolved and downloaded, [loadFileFromAsset]
    calls [new FileSystem.File] once, with [asset.localUri] when that is a
    non-empty string and otherwise with [asset.uri], and a handle it then
    stores is the one constructed from that URI.  When neither is usable it
    fails with [No valid URI from asset], and the constructor is never
    called. *)
Theorem loadFileFromAsset_prefers_localUri
    (env : Env) (st : State) (asset0 asset : Asset.t) :
  Asset_fromModule env = inr asset0 ->
  Asset_downloadAsync env asset0 = inr asset ->
  (forall l,
      Asset.localUri asset = Some l -> l <> "" ->
      constructed (trace (loadFileFromAsset env st)) = [l]
      /\ forall f, fileObject (final (loadFileFromAsset env st)) = Some f ->
                   FileSystem_File env l = inr f)
  /\ (truthy (Asset.localUri asset) = false -> Asset.uri asset <> "" ->
      constructed (trace (loadFileFromAsset env st)) = [Asset.uri asset]
      /\ forall f, fileObject (final (loadFileFromAsset env st)) = Some f ->
                   FileSystem_File env (Asset.uri asset) = inr f)
  /\ (truthy (Asset.localUri asset) = false -> Asset.uri asset = "" ->
      constructed (trace (loadFileFromAsset env st)) = []
      /\ load_shows_error (loadFileFromAsset env st)
           (new_Error "No valid URI from asset")
      /\ errorText (final (loadFileFromAsset env st))
         = "Error: No valid URI from asset" ++ nl ++ nl ++ "{}").
Proof.
  intros Hfrom Hdown.
  assert (Hstored : forall f,
             fileObject (final (loadFileFromAsset env st)) = Some f ->
             FileSystem_File env (localUri_or_uri asset) = inr f).
  { intros f. rewrite load_final.
    destruct (load_result env) as [[e|raised]|file] eqn:Hres; cbn;
      [discriminate|discriminate|].
    intros [= <-]. apply load_result_inr in Hres.
    destruct Hres as (a0 & a & Ha0 & Ha & _ & Hfile & _).
    congruence. }
  rewrite load_constructed, Hfrom, Hdown.
  split; [|split].
  - intros l Hl Hne.
    rewrite (localUri_or_uri_local asset l Hl Hne) in *.
    apply String.eqb_neq in Hne. rewrite Hne. auto.
  - intros Hfalsy Hne.
    rewrite (localUri_or_uri_remote asset Hfalsy) in *.
    apply String.eqb_neq in Hne. rewrite Hne. auto.
  - intros Hfalsy Hempty.
    assert (Hres : load_result env
                   = inl (ErrorLike (new_Error "No valid URI from asset"))).
    { unfold load_result.
      now rewrite Hfrom, Hdown, (localUri_or_uri_remote asset Hfalsy), Hempty. }
    rewrite (localUri_or_uri_remote asset Hfalsy), Hempty. cbn.
    split; [reflexivity|]. split.
    + now apply load_result_shows_error.
    + rewrite load_final, Hres. reflexivity.
Qed.

Lemma loadFileFromAsset_prefers_localUri_witness :
  constructed (trace (loadFileFromAsset Sample.android Sample.initial))
  = ["file:///data/user/0/host/cache/ExponentAsset-9a03.pdf"]
  /\ constructed (trace (loadFileFromAsset Sample.android_remote_only Sample.initial))
     = ["http://10.0.2.2:8081/assets/pdf/sample.pdf"]
  /\ errorText (final (loadFileFromAsset Sample.android_no_uri Sample.initial))
     = "Error: No valid URI from asset" ++ nl ++ nl ++ "{}".
Proof.
  split; [|split].
  - apply (loadFileFromAsset_prefers_localUri Sample.android Sample.initial
             Sample.asset0 Sample.asset);
      try reflexivity; discriminate.
  - apply (loadFileFromAsset_prefers_localUri Sample.android_remote_only
             Sample.initial Sample.asset0 Sample.asset0);
      try reflexivity; discriminate.
  - apply (loadFileFromAsset_prefers_localUri Sample.android_no_uri
             Sample.initial Sample.asset0 Sample.asset_no_uri);
      reflexivity.
Defined.

(** C7: when the constructed handle's [exists] flag is false,
    [loadFileFromAsset] fails with [File does not exist].  That error and the
    [No valid URI from asset] error are both thrown inside the [try] block
    and caught by its [catch] clause: the handler ends normally, the error
    panel shows the message followed by the JSON dump of the error, and an
    alert names the message. *)
Theorem loadFileFromAsset_errors_caught
    (env : Env) (st : State) (asset0 asset : Asset.t) :
  Asset_fromModule env = inr asset0 ->
  Asset_downloadAsync env asset0 = inr asset ->
  (forall file,
      localUri_or_uri asset <> "" ->
      FileSystem_File env (localUri_or_uri asset) = inr file ->
      File.exists_ file = false ->
      completion (loadFileFromAsset_try env (cleared st))
      = Thrown (new_Error "File does not exist")
      /\ load_shows_error (loadFileFromAsset env st)
           (new_Error "File does not exist")
      /\ errorText (final (loadFileFromAsset env st))
         = "Error: File does not exist" ++ nl ++ nl ++ "{}")
  /\ (localUri_or_uri asset = "" ->
      completion (loadFileFromAsset_try env (cleared st))
      = Thrown (new_Error "No valid URI from asset")
      /\ load_shows_error (loadFileFromAsset env st)
           (new_Error "No valid URI from asset")
      /\ errorText (final (loadFileFromAsset env st))
         = "Error: No valid URI from asset" ++ nl ++ nl ++ "{}").
Proof.
  intros Hfrom Hdown. split.
  - intros file Hne Hfile Hex. apply String.eqb_neq in Hne.
    assert (Hres : load_result env
                   = inl (ErrorLike (new_Error "File does not exist"))).
    { unfold load_result. now rewrite Hfrom, Hdown, Hne, Hfile, Hex. }
    rewrite load_try_completion, load_final, Hres.
    split; [reflexivity|]. split; [|reflexivity].
    now apply load_result_shows_error.
  - intros Hempty.
    assert (Hres : load_result env
                   = inl (ErrorLike (new_Error "No valid URI from asset"))).
    { unfold load_result. now rewrite Hfrom, Hdown, Hempty. }
    rewrite load_try_completion, load_final, Hres.
    split; [reflexivity|]. split; [|reflexivity].
    now apply load_result_shows_error.
Qed.

Lemma loadFileFromAsset_errors_caught_witness :
  load_shows_error (loadFileFromAsset Sample.android_missing Sample.initial)
    (new_Error "File does not exist")
  /\ load_shows_error (loadFileFromAsset Sample.android_no_uri Sample.initial)
       (new_Error "No valid URI from asset").
Proof.
  split.
  - apply (loadFileFromAsset_errors_caught Sample.android_missing
             Sample.initial Sample.asset0 Sample.asset) with (file := Sample.file_missing);
      try reflexivity; discriminate.
  - apply (loadFileFromAsset_errors_caught Sample.android_no_uri
             Sample.initial Sample.asset0 Sample.asset_no_uri);
      reflexivity.
Defined.

(** ** The handle slot *)

Lemma open_frame env st :
  fileObject (final (openFileWithIntent env st)) = fileObject st
  /\ fileInfo (final (openFileWithIntent env st)) = fileInfo st
  /\ isLoading (final (openFileWithIntent env st)) = isLoading st
  /\ handle_writes (trace (openFileWithIntent env st)) = [].
Proof. run; auto. Qed.

Lemma load_alerts env st :
  alerts (trace (loadFileFromAsset env st))
  = match load_result env with
    | inl (ErrorLike e) => [("Error", "Failed to load file: " ++ message e)]
    | inl (Unformattable _) => []
    | inr file => [("File Loaded", file_loaded_text file)]
    end.
Proof. unfold load_result, file_loaded_text. run; congruence. Qed.

Lemma open_try_thrown env st f (e : JsError) :
  fileObject st = Some f ->
  Platform_OS env = "android" ->
  completion (openFileWithIntent_try env f st) = Thrown (ErrorLike e) ->
  open_shows_error (openFileWithIntent env st) e.
Proof.
  intros Hsome Hos. unfold open_shows_error, openFileWithIntent.
  rewrite Hsome. unfold_handlers; unfold_monad; cbn. rewrite Hos. cbn.
  repeat (case_split; cbn in * ); try discriminate.
  intros [= <-]. cbn. intuition.
Qed.

Lemma open_try_unformattable env st f raised :
  fileObject st = Some f ->
  Platform_OS env = "android" ->
  completion (openFileWithIntent_try env f st) = Thrown (Unformattable raised) ->
  completion (openFileWithIntent env st) = Thrown raised
  /\ errorText (final (openFileWithIntent env st)) = ""
  /\ alerts (trace (openFileWithIntent env st)) = [].
Proof.
  intros Hsome Hos. unfold openFileWithIntent.
  rewrite Hsome. unfold_handlers; unfold_monad; cbn. rewrite Hos. cbn.
  repeat (case_split; cbn in * ); try discriminate.
  intros [= <-]. repeat split.
Qed.

Lemma open_completion_normal env st :
  (forall f raised,
      fileObject st = Some f ->
      Platform_OS env = "android" ->
      completion (openFileWithIntent_try env f st)
      <> Thrown (Unformattable raised)) ->
  completion (openFileWithIntent env st) = Normal tt.
Proof.
  intros H. unfold openFileWithIntent.
  destruct (fileObject st) as [f|] eqn:Hsome; [|reflexivity].
  destruct (String.eqb_spec (Platform_OS env) "android") as [Hos|Hos].
  - specialize (fun raised => H f raised eq_refl Hos).
    unfold_handlers; unfold_monad; cbn in *. rewrite Hos. cbn.
    destruct (truthy (File.contentUri f)); cbn in *; [|reflexivity].
    destruct (IntentLauncher_startActivityAsync env _ _) as [[e|raised]|];
      cbn in *; try reflexivity.
    now destruct (H raised).
  - apply eqb_android_false in Hos.
    unfold_handlers; unfold_monad; cbn. rewrite Hos. reflexivity.
Qed.

(** C8: [openFileWithIntent] never calls [setFileObject], and leaves
    [fileObject], [fileInfo] and [isLoading] as they were, on every path.
    [loadFileFromAsset] calls [setFileObject] with a handle exactly once in
    a run that ends with a handle in the slot, and never in a run that ends
    without one. *)
Theorem fileObject_written_only_by_load (env : Env) (st : State) :
  (fileObject (final (openFileWithIntent env st)) = fileObject st
   /\ fileInfo (final (openFileWithIntent env st)) = fileInfo st
   /\ isLoading (final (openFileWithIntent env st)) = isLoading st
   /\ handle_writes (trace (openFileWithIntent env st)) = [])
  /\ (forall f,
       fileObject (final (loadFileFromAsset env st)) = Some f ->
       handles (handle_writes (trace (loadFileFromAsset env st))) = [f])
  /\ (fileObject (final (loadFileFromAsset env st)) = None ->
      handles (handle_writes (trace (loadFileFromAsset env st))) = []).
Proof.
  split; [apply open_frame|].
  rewrite load_final, load_handle_writes.
  destruct (load_result env) as [[e|raised]|file]; cbn; split;
    congruence || discriminate.
Qed.

Lemma fileObject_written_only_by_load_witness :
  handles (handle_writes (trace (loadFileFromAsset Sample.android Sample.initial)))
  = [Sample.file]
  /\ handles
       (handle_writes
          (trace (loadFileFromAsset Sample.android_missing
                    (Sample.loaded Sample.file))))
     = []
  /\ handle_writes
       (trace (openFileWithIntent Sample.android_populated
                 (Sample.loaded Sample.file_with_contentUri)))
     = [].
Proof.
  split; [|split].
  - apply (fileObject_written_only_by_load Sample.android Sample.initial).
    reflexivity.
  - apply (fileObject_written_only_by_load Sample.android_missing
             (Sample.loaded Sample.file)).
    reflexivity.
  - apply (fileObject_written_only_by_load Sample.android_populated
             (Sample.loaded Sample.file_with_contentUri)).
Defined.

(** C9, as the code has it: an error thrown in a [try] block whose value
    the [catch] clause can format (its [message] reads and [JSON.stringify]
    prints it) never escapes: the handler ends normally and the error is
    shown as its message followed by its JSON dump.  That covers the
    handlers' own errors and such a rejection of
    [IntentLauncher.startActivityAsync].  A thrown value the [catch] clause
    cannot format makes the clause itself throw: the handler's promise
    rejects and no error text or alert is shown.  After every run of
    [loadFileFromAsset], either way, [isLoading] is false. *)
Theorem formattable_failures_never_escape (env : Env) (st : State) :
  isLoading (final (loadFileFromAsset env st)) = false
  /\ ((forall raised,
        completion (loadFileFromAsset_try env (cleared st))
        <> Thrown (Unformattable raised)) ->
      completion (loadFileFromAsset env st) = Normal tt)
  /\ ((forall f raised,
        fileObject st = Some f ->
        Platform_OS env = "android" ->
        completion (openFileWithIntent_try env f st)
        <> Thrown (Unformattable raised)) ->
      completion (openFileWithIntent env st) = Normal tt)
  /\ (forall e : JsError,
       completion (loadFileFromAsset_try env (cleared st))
       = Thrown (ErrorLike e) ->
       load_shows_error (loadFileFromAsset env st) e)
  /\ (forall f (e : JsError),
       fileObject st = Some f ->
       Platform_OS env = "android" ->
       completion (openFileWithIntent_try env f st) = Thrown (ErrorLike e) ->
       open_shows_error (openFileWithIntent env st) e)
  /\ (forall f c (e : JsError),
       fileObject st = Some f ->
       Platform_OS env = "android" ->
       File.contentUri f = Some c ->
       c <> "" ->
       IntentLauncher_startActivityAsync env "android.intent.action.VIEW"
         {| IntentLauncher.data := Some c;
            IntentLauncher.flags := 1;
            IntentLauncher.type := "application/pdf" |} = Some (ErrorLike e) ->
       completion (openFileWithIntent_try env f st) = Thrown (ErrorLike e)
       /\ open_shows_error (openFileWithIntent env st) e)
  /\ (forall raised,
       completion (loadFileFromAsset_try env (cleared st))
       = Thrown (Unformattable raised) ->
       completion (loadFileFromAsset env st) = Thrown raised
       /\ errorText (final (loadFileFromAsset env st)) = ""
       /\ alerts (trace (loadFileFromAsset env st)) = [])
  /\ (forall f raised,
       fileObject st = Some f ->
       Platform_OS env = "android" ->
       completion (openFileWithIntent_try env f st)
       = Thrown (Unformattable raised) ->
       completion (openFileWithIntent env st) = Thrown raised
       /\ errorText (final (openFileWithIntent env st)) = ""
       /\ alerts (trace (openFileWithIntent env st)) = []).
Proof.
  split; [rewrite load_final;
          destruct (load_result env) as [[e|raised]|file]; reflexivity|].
  split; [|split; [apply open_completion_normal|]].
  { rewrite load_try_completion, load_completion.
    destruct (load_result env) as [[e|raised]|file]; intros H;
      try reflexivity.
    now destruct (H raised). }
  split; [|split; [|split; [|split]]].
  - intros e. rewrite load_try_completion.
    destruct (load_result env) as [e'|file] eqn:Hres; [|discriminate].
    intros [= ->]. now apply load_result_shows_error.
  - intros f e. apply open_try_thrown.
  - intros f c e Hsome Hos Hc Hne Hrej.
    assert (Hthrown : completion (openFileWithIntent_try env f st)
                      = Thrown (ErrorLike e)).
    { apply String.eqb_neq in Hne.
      unfold_handlers; unfold_monad; cbn. rewrite Hc. cbn. rewrite Hne. cbn.
      rewrite Hrej. reflexivity. }
    split; [exact Hthrown|]. now apply open_try_thrown with (f := f).
  - intros raised. rewrite load_try_completion, load_completion, load_final,
      load_alerts.
    destruct (load_result env) as [[e|raised']|file]; try discriminate.
    intros [= ->]. repeat split.
  - intros f raised. apply open_try_unformattable.
Qed.

Lemma formattable_failures_never_escape_witness :
  open_shows_error
    (openFileWithIntent Sample.android_rejecting
       (Sample.loaded Sample.file_with_contentUri))
    Sample.no_handler
  /\ load_shows_error
       (loadFileFromAsset Sample.android_missing (Sample.loaded Sample.file))
       (new_Error "File does not exist")
  /\ completion
       (loadFileFromAsset Sample3.download_rejects_undefined Sample.initial)
     = Thrown Sample3.cannot_read_message.
Proof.
  split; [|split].
  - apply (formattable_failures_never_escape Sample.android_rejecting
             (Sample.loaded Sample.file_with_contentUri))
      with (f := Sample.file_with_contentUri)
           (c := "content://provider/files/sample.pdf");
      try reflexivity; discriminate.
  - apply (formattable_failures_never_escape Sample.android_missing
             (Sample.loaded Sample.file)).
    reflexivity.
  - apply (formattable_failures_never_escape
             Sample3.download_rejects_undefined Sample.initial).
    reflexivity.
Defined.

(** C9, as the claim states it, fails: when [downloadAsync] rejects with
    [undefined], the [catch] clause of [loadFileFromAsset] throws while it
    formats the error, and when [IntentLauncher.startActivityAsync] rejects
    with a circular object, so does the [catch] clause of
    [openFileWithIntent].  The throw escapes the handler, and neither an
    error text nor an alert is shown. *)
Lemma unformattable_failure_escapes :
  (completion
     (loadFileFromAsset Sample3.download_rejects_undefined Sample.initial)
   <> Normal tt
   /\ completion
        (loadFileFromAsset Sample3.download_rejects_undefined Sample.initial)
      = Thrown Sample3.cannot_read_message
   /\ errorText
        (final (loadFileFromAsset Sample3.download_rejects_undefined
                  Sample.initial)) = ""
   /\ alerts
        (trace (loadFileFromAsset Sample3.download_rejects_undefined
                  Sample.initial)) = [])
  /\ (completion
        (openFileWithIntent Sample3.viewer_rejects_circular
           (Sample.loaded Sample.file_with_contentUri))
      <> Normal tt
      /\ completion
           (openFileWithIntent Sample3.viewer_rejects_circular
              (Sample.loaded Sample.file_with_contentUri))
         = Thrown Sample3.circular_structure
      /\ errorText
           (final (openFileWithIntent Sample3.viewer_rejects_circular
                     (Sample.loaded Sample.file_with_contentUri))) = ""
      /\ alerts
           (trace (openFileWithIntent Sample3.viewer_rejects_circular
                     (Sample.loaded Sample.file_with_contentUri))) = []).
Proof. repeat split; discriminate. Qed.

(** C10: every run of [loadFileFromAsset] starts with [setErrorText('')],
    [setFileInfo('')], [setFileObject(null)], before anything else and so
    before it suspends; it suspends at most once, and in the state at that
    point (the state changes are exactly the setter calls of the trace, so
    it is the one the trace replays up to there) the three slots are cleared.  [setFileObject] gets a handle at
    most once, and only one that passed every check.  When the [try] block
    throws, the slot is empty afterwards, whatever it held before the run.
    In the suspended state and after a failed run, [openFileWithIntent]
    only shows [Please load the file first]. *)
Theorem loadFileFromAsset_clears_handle (env env' : Env) (st : State) :
  final (loadFileFromAsset env st) = replay st (trace (loadFileFromAsset env st))
  /\ firstn 3 (trace (loadFileFromAsset env st))
  = [SetErrorText ""; SetFileInfo ""; SetFileObject None]
  /\ awaits (trace (loadFileFromAsset env st)) <= 1
  /\ (forall p,
       before_await (trace (loadFileFromAsset env st)) = Some p ->
       firstn 3 p = [SetErrorText ""; SetFileInfo ""; SetFileObject None]
       /\ errorText (replay st p) = ""
       /\ fileInfo (replay st p) = ""
       /\ fileObject (replay st p) = None
       /\ trace (openFileWithIntent env' (replay st p))
          = [AlertAlert "No File" "Please load the file first"])
  /\ length (handles (handle_writes (trace (loadFileFromAsset env st)))) <= 1
  /\ (forall f,
       In (SetFileObject (Some f)) (trace (loadFileFromAsset env st)) ->
       exists asset0 asset,
         Asset_fromModule env = inr asset0
         /\ Asset_downloadAsync env asset0 = inr asset
         /\ localUri_or_uri asset <> ""
         /\ FileSystem_File env (localUri_or_uri asset) = inr f
         /\ File.exists_ f = true)
  /\ (forall e,
       completion (loadFileFromAsset_try env (cleared st)) = Thrown e ->
       fileObject (final (loadFileFromAsset env st)) = None
       /\ trace (openFileWithIntent env' (final (loadFileFromAsset env st)))
          = [AlertAlert "No File" "Please load the file first"]).
Proof.
  split; [apply Traced_loadFileFromAsset|].
  split; [apply load_trace_starts|].
  split; [apply load_awaits|].
  split; [|split; [|split]].
  - intros p. rewrite load_before_await.
    destruct (Asset_fromModule env) as [e|asset0]; [discriminate|].
    intros [= <-]. repeat split.
  - rewrite load_handle_writes.
    destruct (load_result env); cbn; lia.
  - intros f Hin. apply In_handle_writes in Hin.
    rewrite load_handle_writes in Hin.
    apply load_result_inr.
    destruct (load_result env) as [e|file]; cbn in Hin.
    + destruct Hin as [Hin|[]]. discriminate.
    + destruct Hin as [Hin|[Hin|[]]]; congruence.
  - intros e. rewrite load_try_completion, load_final.
    destruct (load_result env) as [[e'|raised]|file]; [| |discriminate];
      intros _; split; reflexivity.
Qed.

Lemma loadFileFromAsset_clears_handle_witness :
  fileObject
    (final (loadFileFromAsset Sample.android_missing (Sample.loaded Sample.file)))
  = None
  /\ (exists p,
       before_await
         (trace (loadFileFromAsset Sample.android (Sample.loaded Sample.file)))
       = Some p
       /\ fileObject (replay (Sample.loaded Sample.file) p) = None).
Proof.
  split.
  - apply (loadFileFromAsset_clears_handle Sample.android_missing
             Sample.android (Sample.loaded Sample.file))
      with (e := new_Error "File does not exist").
    reflexivity.
  - eexists. split; [reflexivity|].
    apply (loadFileFromAsset_clears_handle Sample.android Sample.android
             (Sample.loaded Sample.file)).
    reflexivity.
Defined.

(** ** Further properties of [loadFileFromAsset] *)

Lemma load_console_errors env st :
  console_errors (trace (loadFileFromAsset env st))
  = match load_result env with
    | inl _ => 1
    | inr _ => 0
    end.
Proof. unfold load_result. run; congruence. Qed.

Lemma load_trace_any_state env st st' :
  trace (loadFileFromAsset env st) = trace (loadFileFromAsset env st').
Proof. run; congruence. Qed.

Lemma load_result_reports env st v :
  load_result env = inl v ->
  load_reports (loadFileFromAsset env st) v.
Proof.
  intros H. destruct v as [e|raised]; cbn.
  - now apply load_result_shows_error.
  - rewrite load_completion, load_final, load_alerts, H. repeat split.
Qed.

(** X1: every run of [loadFileFromAsset] shows at most one alert.  When it
    ends with a handle in the slot, that is [File Loaded], with the name,
    size and type of the handle (the size in decimal digits, for a safe
    integer).  When it ends without one, the [try] block threw, and the
    alert is [Error] with the message of the thrown value if the [catch]
    clause can format it; if it cannot, no alert is shown. *)
Theorem loadFileFromAsset_one_alert (env : Env) (st : State) :
  length (alerts (trace (loadFileFromAsset env st))) <= 1
  /\ match fileObject (final (loadFileFromAsset env st)) with
     | Some file =>
         exists text,
           alerts (trace (loadFileFromAsset env st)) = [("File Loaded", text)]
           /\ ((File.size file <= MAX_SAFE_INTEGER)%N ->
               text
               = "File object created from asset" ++ nl
                 ++ "Name: " ++ File.name file ++ nl
                 ++ "Size: " ++ string_of_N (File.size file) ++ " bytes" ++ nl
                 ++ "Type: " ++ File.type file)
     | None =>
         exists v,
           completion (loadFileFromAsset_try env (cleared st)) = Thrown v
           /\ alerts (trace (loadFileFromAsset env st))
              = match v with
                | ErrorLike e =>
                    [("Error", "Failed to load file: " ++ message e)]
                | Unformattable _ => []
                end
     end.
Proof.
  rewrite load_alerts, load_final, load_try_completion.
  destruct (load_result env) as [[e|raised]|file]; cbn; split; auto.
  - exists (ErrorLike e). auto.
  - exists (Unformattable raised). auto.
  - eexists. split; [reflexivity|]. intros _. reflexivity.
Qed.

Lemma loadFileFromAsset_one_alert_witness :
  (File.size Sample.file <= MAX_SAFE_INTEGER)%N
  /\ alerts (trace (loadFileFromAsset Sample.android Sample.initial))
     = [("File Loaded",
         "File object created from asset" ++ nl
         ++ "Name: ExponentAsset-9a03.pdf" ++ nl
         ++ "Size: 13264 bytes" ++ nl
         ++ "Type: application/pdf")].
Proof.
  assert (Hsize : (File.size Sample.file <= MAX_SAFE_INTEGER)%N)
    by (vm_compute; discriminate).
  split; [exact Hsize|].
  destruct (loadFileFromAsset_one_alert Sample.android Sample.initial)
    as [_ H].
  cbn in H. destruct H as (text & Halerts & Htext).
  specialize (Htext Hsize). subst text. exact Halerts.
Defined.

(** X2: [loadFileFromAsset] ends with a handle in the slot exactly when it
    ends normally with an empty error text; [console.error] is called once
    in a run that ends without a handle and never in one that ends with
    one. *)
Theorem loadFileFromAsset_error_iff_no_handle (env : Env) (st : State) :
  ((exists file, fileObject (final (loadFileFromAsset env st)) = Some file)
   <-> errorText (final (loadFileFromAsset env st)) = ""
       /\ completion (loadFileFromAsset env st) = Normal tt)
  /\ console_errors (trace (loadFileFromAsset env st))
     = match fileObject (final (loadFileFromAsset env st)) with
       | Some _ => 0
       | None => 1
       end.
Proof.
  rewrite load_console_errors, load_final, load_completion.
  destruct (load_result env) as [[e|raised]|file]; cbn; split; auto; split.
  - intros [file [=]].
  - intros [[=] _].
  - intros [file [=]].
  - intros [_ [=]].
  - auto.
  - eauto.
Qed.

(** X3: what [loadFileFromAsset] does and the state it ends in do not
    depend on the state it starts from: a reload behaves like a first load,
    whatever an earlier load or open left behind. *)
Theorem loadFileFromAsset_forgets_state (env : Env) (st st' : State) :
  loadFileFromAsset env st = loadFileFromAsset env st'.
Proof.
  pose proof (load_completion env st) as Hc.
  pose proof (load_completion env st') as Hc'.
  pose proof (load_final env st) as Hf.
  pose proof (load_final env st') as Hf'.
  pose proof (load_trace_any_state env st st') as Ht.
  destruct (loadFileFromAsset env st), (loadFileFromAsset env st').
  cbn in *. congruence.
Qed.

(** X4: [loadFileFromAsset] brackets its work with the loading flag: it
    calls [setIsLoading] exactly twice, with [true] right after the three
    clearing setters and with [false] as its very last action, on every
    path. *)
Theorem loadFileFromAsset_loading_bracket (env : Env) (st : State) :
  isLoading_writes (trace (loadFileFromAsset env st)) = [true; false]
  /\ nth_error (trace (loadFileFromAsset env st)) 3 = Some (SetIsLoading true)
  /\ last (trace (loadFileFromAsset env st)) Await = SetIsLoading false.
Proof. run; repeat split. Qed.

(** X5: when [Asset.fromModule] throws, [loadFileFromAsset] never calls
    [downloadAsync] or the [File] constructor and never suspends; when
    [downloadAsync] rejects, the constructor is never called.  The thrown
    value reaches the [catch] clause, which shows it if it can format it
    and throws itself if it cannot. *)
Theorem loadFileFromAsset_asset_failure (env : Env) (st : State) (v : JsThrown) :
  (Asset_fromModule env = inl v ->
   downloads (trace (loadFileFromAsset env st)) = []
   /\ constructed (trace (loadFileFromAsset env st)) = []
   /\ awaits (trace (loadFileFromAsset env st)) = 0
   /\ completion (loadFileFromAsset_try env (cleared st)) = Thrown v
   /\ load_reports (loadFileFromAsset env st) v)
  /\ (forall asset0,
       Asset_fromModule env = inr asset0 ->
       Asset_downloadAsync env asset0 = inl v ->
       downloads (trace (loadFileFromAsset env st)) = [asset0]
       /\ constructed (trace (loadFileFromAsset env st)) = []
       /\ awaits (trace (loadFileFromAsset env st)) = 1
       /\ completion (loadFileFromAsset_try env (cleared st)) = Thrown v
       /\ load_reports (loadFileFromAsset env st) v).
Proof.
  split.
  - intros Hfrom.
    assert (Hres : load_result env = inl v).
    { unfold load_result. now rewrite Hfrom. }
    split; [|split; [|split; [|split]]];
      [| | | rewrite load_try_completion, Hres; reflexivity
       | now apply load_result_reports];
      unfold_handlers; unfold_monad; cbn; rewrite Hfrom; cbn;
      destruct v; reflexivity.
  - intros asset0 Hfrom Hdown.
    assert (Hres : load_result env = inl v).
    { unfold load_result. now rewrite Hfrom, Hdown. }
    split; [|split; [|split; [|split]]];
      [| | | rewrite load_try_completion, Hres; reflexivity
       | now apply load_result_reports];
      unfold_handlers; unfold_monad; cbn; rewrite Hfrom; cbn;
      rewrite Hdown; cbn; destruct v; reflexivity.
Qed.

Lemma loadFileFromAsset_asset_failure_witness :
  load_shows_error (loadFileFromAsset Sample2.unregistered Sample.initial)
    Sample2.not_in_registry
  /\ constructed (trace (loadFileFromAsset Sample2.no_network Sample.initial))
     = []
  /\ completion
       (loadFileFromAsset Sample3.download_rejects_undefined Sample.initial)
     = Thrown Sample3.cannot_read_message.
Proof.
  split; [|split].
  - apply (loadFileFromAsset_asset_failure Sample2.unregistered Sample.initial
             (ErrorLike Sample2.not_in_registry)).
    reflexivity.
  - apply (loadFileFromAsset_asset_failure Sample2.no_network Sample.initial
             (ErrorLike Sample2.offline)) with (asset0 := Sample.asset0);
      reflexivity.
  - apply (loadFileFromAsset_asset_failure Sample3.download_rejects_undefined
             Sample.initial (Unformattable Sample3.cannot_read_message))
      with (asset0 := Sample.asset0);
      reflexivity.
Defined.

(** X6: when the [File] constructor throws, the thrown value reaches the
    [catch] clause (shown if the clause can format it) and no property of
    any handle is read; when the constructor returns a handle that exists,
    the handle is stored whatever its [contentUri] is, which is read
    exactly once (for the log) and decides nothing. *)
Theorem loadFileFromAsset_constructor_outcome
    (env : Env) (st : State) (asset0 asset : Asset.t) :
  Asset_fromModule env = inr asset0 ->
  Asset_downloadAsync env asset0 = inr asset ->
  localUri_or_uri asset <> "" ->
  (forall v,
      FileSystem_File env (localUri_or_uri asset) = inl v ->
      completion (loadFileFromAsset_try env (cleared st)) = Thrown v
      /\ load_reports (loadFileFromAsset env st) v
      /\ file_reads (trace (loadFileFromAsset env st)) = 0)
  /\ (forall file,
       FileSystem_File env (localUri_or_uri asset) = inr file ->
       File.exists_ file = true ->
       completion (loadFileFromAsset env st) = Normal tt
       /\ final (loadFileFromAsset env st) = mkState (Some file) "" "" false
       /\ contentUri_reads (trace (loadFileFromAsset env st)) = 1
       /\ In (ConsoleLog "🔍 Checking for contentUri..."
                (LogValue (File.contentUri file)))
             (trace (loadFileFromAsset env st))).
Proof.
  intros Hfrom Hdown Hne. apply String.eqb_neq in Hne. split.
  - intros v Hfile.
    assert (Hres : load_result env = inl v).
    { unfold load_result. now rewrite Hfrom, Hdown, Hne, Hfile. }
    split; [rewrite load_try_completion, Hres; reflexivity|].
    split; [now apply load_result_reports|].
    unfold_handlers; unfold_monad; cbn. rewrite Hfrom. cbn. rewrite Hdown. cbn.
    rewrite Hne. cbn. rewrite Hfile. cbn. destruct v; reflexivity.
  - intros file Hfile Hex.
    assert (Hres : load_result env = inr file).
    { unfold load_result. now rewrite Hfrom, Hdown, Hne, Hfile, Hex. }
    split; [rewrite load_completion, Hres; reflexivity|].
    split; [rewrite load_final, Hres; reflexivity|].
    unfold_handlers; unfold_monad; cbn. rewrite Hfrom. cbn. rewrite Hdown. cbn.
    rewrite Hne. cbn. rewrite Hfile. cbn. rewrite Hex. cbn.
    split; [reflexivity|]. intuition.
Qed.

Lemma loadFileFromAsset_constructor_outcome_witness :
  load_shows_error (loadFileFromAsset Sample2.throwing_File Sample.initial)
    Sample2.bad_uri
  /\ final (loadFileFromAsset Sample.android_populated Sample.initial)
     = mkState (Some Sample.file_with_contentUri) "" "" false.
Proof.
  split.
  - apply (loadFileFromAsset_constructor_outcome Sample2.throwing_File
             Sample.initial Sample.asset0 Sample.asset)
      with (v := ErrorLike Sample2.bad_uri);
      try reflexivity; discriminate.
  - apply (loadFileFromAsset_constructor_outcome Sample.android_populated
             Sample.initial Sample.asset0 Sample.asset);
      try reflexivity; discriminate.
Defined.

(** X7: [loadFileFromAsset] does not look at the platform: it never reads
    [Platform.OS], never calls [IntentLauncher.startActivityAsync], and
    runs the same on any platform. *)
Theorem loadFileFromAsset_platform_independent
    (env : Env) (os : string) (st : State) :
  loadFileFromAsset (with_Platform_OS env os) st = loadFileFromAsset env st
  /\ ~ In PlatformGetOS (trace (loadFileFromAsset env st))
  /\ intent_calls (trace (loadFileFromAsset env st)) = [].
Proof.
  split; [|split].
  - run; congruence.
  - run; intuition discriminate.
  - run; reflexivity.
Qed.

(** X8: [setFileInfo] is only ever called with the empty string: once by
    [loadFileFromAsset], never by [openFileWithIntent], so [fileInfo] is
    empty after every load. *)
Theorem fileInfo_only_cleared (env : Env) (st : State) :
  fileInfo_writes (trace (loadFileFromAsset env st)) = [""]
  /\ fileInfo_writes (trace (openFileWithIntent env st)) = []
  /\ fileInfo (final (loadFileFromAsset env st)) = "".
Proof.
  split; [|split].
  - run; reflexivity.
  - run; reflexivity.
  - rewrite load_final.
    destruct (load_result env) as [[e|raised]|file]; reflexivity.
Qed.

(** X9: [asset.localUri || asset.uri] is empty exactly when [localUri] is
    absent or empty and [uri] is empty, and otherwise it is one of the two
    and non-empty: the [No valid URI from asset] error has no other
    cause. *)
Theorem localUri_or_uri_empty_iff (asset : Asset.t) :
  (localUri_or_uri asset = ""
   <-> truthy (Asset.localUri asset) = false /\ Asset.uri asset = "")
  /\ (localUri_or_uri asset = Asset.uri asset
      \/ Asset.localUri asset = Some (localUri_or_uri asset)).
Proof.
  unfold localUri_or_uri, truthy.
  destruct (Asset.localUri asset) as [l|].
  - destruct (String.eqb_spec l "") as [->|Hne]; cbn.
    + split; [tauto|]. now left.
    + split; [|now right]. split; [congruence|]. intros [[=] _].
  - split; [tauto|]. now left.
Qed.

(** ** Further properties of [openFileWithIntent] *)

(** X10: every run of [openFileWithIntent] that ends normally shows
    exactly one alert, on every path; a run whose [catch] clause throws
    shows none. *)
Theorem openFileWithIntent_one_alert (env : Env) (st : State) :
  length (alerts (trace (openFileWithIntent env st)))
  = match completion (openFileWithIntent env st) with
    | Thrown _ => 0
    | _ => 1
    end.
Proof. run; reflexivity. Qed.

(** X11: [openFileWithIntent] calls [IntentLauncher.startActivityAsync]
    exactly when a handle is held, the platform is Android and the
    handle's [contentUri] is a non-empty string; then it calls it once,
    with the fixed action, flags and type.  It suspends only for that
    call. *)
Theorem openFileWithIntent_intent_calls (env : Env) (st : State) :
  intent_calls (trace (openFileWithIntent env st))
  = match fileObject st with
    | Some f =>
        if (Platform_OS env =? "android") && truthy (File.contentUri f) then
          [("android.intent.action.VIEW",
            {| IntentLauncher.data := File.contentUri f;
               IntentLauncher.flags := 1;
               IntentLauncher.type := "application/pdf" |})]
        else []
    | None => []
    end
  /\ awaits (trace (openFileWithIntent env st))
     = length (intent_calls (trace (openFileWithIntent env st))).
Proof.
  unfold openFileWithIntent.
  destruct (fileObject st) as [f|]; [|split; reflexivity].
  unfold_handlers; unfold_monad; cbn.
  destruct (Platform_OS env =? "android"); cbn; [|split; reflexivity].
  destruct (truthy (File.contentUri f)); cbn; [|split; reflexivity].
  destruct (IntentLauncher_startActivityAsync env _ _) as [[e|raised]|]; cbn;
    split; reflexivity.
Qed.

(** X12: what an earlier run of [openFileWithIntent] left behind does not
    affect the next run: whatever the collaborators did the first time and
    do the second time, the second run behaves exactly as it would have
    from the state before the first.  The handler reads only the handle,
    which it does not change, and overwrites the error text without
    reading it. *)
Theorem openFileWithIntent_unaffected_by_earlier_run (env env' : Env) (st : State) :
  openFileWithIntent env' (final (openFileWithIntent env st))
  = openFileWithIntent env' st.
Proof.
  destruct st as [[f|] info err loading]; [|reflexivity].
  assert (Hrun : forall err',
             openFileWithIntent env' (mkState (Some f) info err' loading)
             = openFileWithIntent env' (mkState (Some f) info err loading)).
  { intros err'. unfold openFileWithIntent.
    unfold_handlers; unfold_monad; cbn.
    destruct (Platform_OS env' =? "android"); cbn; [|reflexivity].
    destruct (truthy (File.contentUri f)); cbn; [|reflexivity].
    destruct (IntentLauncher_startActivityAsync env' _ _) as [[e|raised]|];
      reflexivity. }
  destruct (open_frame env (mkState (Some f) info err loading))
    as (Hf & Hi & Hl & _).
  destruct (final (openFileWithIntent env (mkState (Some f) info err loading)))
    as [f' info' err' loading'].
  cbn in Hf, Hi, Hl. subst. apply Hrun.
Qed.

Lemma openFileWithIntent_unaffected_by_earlier_run_witness :
  openFileWithIntent Sample3.viewer_rejects_second_time
    (final (openFileWithIntent Sample.android_populated
              (Sample.loaded Sample.file_with_contentUri)))
  = openFileWithIntent Sample3.viewer_rejects_second_time
      (Sample.loaded Sample.file_with_contentUri).
Proof.
  apply (openFileWithIntent_unaffected_by_earlier_run Sample.android_populated
           Sample3.viewer_rejects_second_time
           (Sample.loaded Sample.file_with_contentUri)).
Defined.

(** X13: with a handle held, [openFileWithIntent] shows the [Success]
    alert exactly when it ends normally with an empty error text; an
    earlier error text never survives.  With no handle held the error text
    is left as it was. *)
Theorem openFileWithIntent_errorText (env : Env) (st : State) :
  match fileObject st with
  | Some _ =>
      alerts (trace (openFileWithIntent env st))
      = [("Success", "PDF opened with IntentLauncher")]
      <-> errorText (final (openFileWithIntent env st)) = ""
          /\ completion (openFileWithIntent env st) = Normal tt
  | None =>
      errorText (final (openFileWithIntent env st)) = errorText st
  end.
Proof.
  unfold openFileWithIntent.
  destruct (fileObject st) as [f|]; [|reflexivity].
  unfold_handlers; unfold_monad; cbn.
  destruct (Platform_OS env =? "android"); cbn;
    [|split; [discriminate|intros [[=] _]]].
  destruct (truthy (File.contentUri f)); cbn;
    [|split; [discriminate|intros [[=] _]]].
  destruct (IntentLauncher_startActivityAsync env _ _) as [[e|raised]|]; cbn.
  - split; [discriminate|intros [[=] _]].
  - split; [discriminate|intros [_ [=]]].
  - split; auto.
Qed.

(** X14: [openFileWithIntent] never calls into expo-asset or
    expo-file-system: no [Asset.fromModule], no [downloadAsync], no
    [new File]. *)
Theorem openFileWithIntent_no_asset_calls (env : Env) (st : State) :
  existsb is_asset_or_file_call (trace (openFileWithIntent env st)) = false.
Proof. run; reflexivity. Qed.

(** ** The two handlers together *)

(** X15: the scenario the screen is built for.  On Android, when the load
    stores an existing handle, a following [openFileWithIntent] shows the
    [contentUri is missing] error and launches nothing if the handle's
    [contentUri] is absent or empty, and otherwise launches the viewer
    once, on exactly that [contentUri]. *)
Theorem load_then_open
    (env : Env) (st : State) (asset0 asset : Asset.t) (file : File.t) :
  Platform_OS env = "android" ->
  Asset_fromModule env = inr asset0 ->
  Asset_downloadAsync env asset0 = inr asset ->
  localUri_or_uri asset <> "" ->
  FileSystem_File env (localUri_or_uri asset) = inr file ->
  File.exists_ file = true ->
  (truthy (File.contentUri file) = false ->
   intent_calls
     (trace (openFileWithIntent env (final (loadFileFromAsset env st)))) = []
   /\ errorText (final (openFileWithIntent env (final (loadFileFromAsset env st))))
      = contentUri_missing)
  /\ (truthy (File.contentUri file) = true ->
      intent_calls
        (trace (openFileWithIntent env (final (loadFileFromAsset env st))))
      = [("android.intent.action.VIEW",
          {| IntentLauncher.data := File.contentUri file;
             IntentLauncher.flags := 1;
             IntentLauncher.type := "application/pdf" |})]).
Proof.
  intros Hos Hfrom Hdown Hne Hfile Hex. apply String.eqb_neq in Hne.
  assert (Hres : load_result env = inr file).
  { unfold load_result. now rewrite Hfrom, Hdown, Hne, Hfile, Hex. }
  rewrite load_final, Hres.
  split; intros Ht.
  - unfold openFileWithIntent. unfold_handlers; unfold_monad; cbn.
    rewrite Hos. cbn. rewrite Ht. cbn. split; reflexivity.
  - destruct (openFileWithIntent_intent_calls env
                (mkState (Some file) "" "" false)) as [Hcalls _].
    rewrite Hcalls. cbn. rewrite Hos, Ht. reflexivity.
Qed.

Lemma load_then_open_witness :
  errorText
    (final (openFileWithIntent Sample.android
              (final (loadFileFromAsset Sample.android Sample.initial))))
  = contentUri_missing
  /\ intent_calls
       (trace (openFileWithIntent Sample.android_populated
                 (final (loadFileFromAsset Sample.android_populated
                           Sample.initial))))
     = [("android.intent.action.VIEW",
         {| IntentLauncher.data := Some "content://provider/files/sample.pdf";
            IntentLauncher.flags := 1;
            IntentLauncher.type := "application/pdf" |})].
Proof.
  split.
  - apply (load_then_open Sample.android Sample.initial Sample.asset0
             Sample.asset Sample.file);
      try reflexivity; discriminate.
  - apply (load_then_open Sample.android_populated Sample.initial
             Sample.asset0 Sample.asset Sample.file_with_contentUri);
      try reflexivity; discriminate.
Defined.

(** ** What the screen shows around the handlers *)

(** X16: the [Open] button is disabled, and drawn with [buttonDisabled],
    exactly in the states in which [openFileWithIntent] would only show
    [Please load the file first]. *)
Theorem render_open_disabled_iff (env : Env) (st : State) :
  (Screen.open_disabled (render env st) = true
   <-> alerts (trace (openFileWithIntent env st))
       = [("No File", "Please load the file first")])
  /\ (Screen.open_disabled (render env st) = true
      <-> In "buttonDisabled" (Screen.open_style (render env st))).
Proof.
  unfold render, openFileWithIntent; cbn.
  destruct (fileObject st) as [f|].
  - split.
    + unfold_handlers; unfold_monad; cbn.
      destruct (Platform_OS env =? "android"); cbn; [|split; discriminate].
      destruct (truthy (File.contentUri f)); cbn; [|split; discriminate].
      destruct (IntentLauncher_startActivityAsync env _ _) as [[e|raised]|];
        cbn; split; discriminate.
    + split; [discriminate|]. cbn. intuition discriminate.
  - split; split; auto. cbn. intuition.
Qed.

(** X17: while [loadFileFromAsset] is suspended, the screen shows both
    buttons disabled, the load button reads [Loading...], and neither the
    [File Object] box nor the error panel is shown. *)
Theorem render_while_loading (env : Env) (st : State) (p : list Event) :
  before_await (trace (loadFileFromAsset env st)) = Some p ->
  isLoading (replay st p) = true
  /\ Screen.load_disabled (render env (replay st p)) = true
  /\ Screen.load_text (render env (replay st p)) = "⏳ Loading..."
  /\ Screen.load_style (render env (replay st p)) = ["button"; "buttonDisabled"]
  /\ Screen.open_disabled (render env (replay st p)) = true
  /\ Screen.selectedBox (render env (replay st p)) = None
  /\ Screen.errorBox (render env (replay st p)) = None.
Proof.
  rewrite load_before_await.
  destruct (Asset_fromModule env) as [e|asset0]; [discriminate|].
  intros [= <-]. repeat split.
Qed.

Lemma render_while_loading_witness :
  Screen.open_disabled
    (render Sample.android
       (replay (Sample.loaded Sample.file)
          [SetErrorText ""; SetFileInfo ""; SetFileObject None;
           SetIsLoading true;
           ConsoleLog "📂 Loading PDF from assets..." LogNothing;
           AssetFromModule; DownloadAsync Sample.asset0]))
  = true.
Proof.
  apply (render_while_loading Sample.android (Sample.loaded Sample.file)).
  reflexivity.
Defined.

(** X18: once [loadFileFromAsset] has run, the load button is enabled
    again and reads [Load PDF from Assets].  The screen then shows the
    [File Object] box or the error panel, never both, and the [Open] button
    is enabled exactly when it is the box; it shows neither only when the
    [catch] clause threw. *)
Theorem render_after_load (env : Env) (st : State) :
  Screen.load_disabled (render env (final (loadFileFromAsset env st))) = false
  /\ Screen.load_text (render env (final (loadFileFromAsset env st)))
     = "📂 Load PDF from Assets"
  /\ Screen.load_style (render env (final (loadFileFromAsset env st)))
     = ["button"]
  /\ match Screen.selectedBox (render env (final (loadFileFromAsset env st))),
           Screen.errorBox (render env (final (loadFileFromAsset env st))) with
     | Some file, None =>
         Screen.open_disabled (render env (final (loadFileFromAsset env st)))
         = false
     | None, Some text =>
         Screen.open_disabled (render env (final (loadFileFromAsset env st)))
         = true
         /\ text = errorText (final (loadFileFromAsset env st))
     | None, None =>
         Screen.open_disabled (render env (final (loadFileFromAsset env st)))
         = true
         /\ exists raised,
              completion (loadFileFromAsset env st) = Thrown raised
     | Some _, Some _ => False
     end.
Proof.
  rewrite load_final, load_completion.
  destruct (load_result env) as [[e|raised]|file]; cbn; repeat split.
  exists raised. reflexivity.
Qed.
